(** * TempTowerController: a shallow embedding and its properties

    The development follows [src/TempTowerController.py].  The controller is
    a Python object whose methods mutate attributes of [self], write to the
    host's logger and call back into the host; it is embedded as a state and
    exception monad over a record of the attributes plus the trace of
    outbound calls.

    Numbers.  A Python [float] is read as an exact rational ([Q]): division,
    [math.ceil], [abs] and the comparisons are the exact ones, division by
    zero raises [ZeroDivisionError] as it does in Python, and rounding error,
    infinities and NaN are outside the model.  A Python [int] is a [Z].

    Collaborators that are not part of the file ([float] on strings,
    [os.path.join], the post-processing script) are Section variables: every
    theorem holds for all of them. *)

From Stdlib Require Import ZArith QArith Qround Qabs Lia List Ascii String.
From stdpp Require Import gmap strings list fin_maps pretty.

Import ListNotations.
Open Scope Z_scope.

(** ** Python values and exceptions *)

(** The values that occur in the preset tables, in the attributes of the
    controller and in the OpenSCAD parameter mapping. *)
Inductive pyval : Type :=
| PyInt (z : Z)
| PyFloat (q : Q)
| PyStr (s : string).

Inductive exn : Type :=
| KeyError
| ValueError
| ZeroDivisionError
| AttributeError
| TypeError
| HostError (name : string).

Inductive result (A : Type) : Type :=
| Ok (a : A)
| Raise (e : exn).
Arguments Ok {A} a.
Arguments Raise {A} e.

(** ** The controller object and the outside world *)

(** Instance attributes, together with the class attributes that are read
    through [self]. [_sectionLayers] is an attribute that need not exist. *)
Record controller : Type := mkController {
  _guiPath : string;
  _stlPath : string;
  _presetTables : gmap string (gmap string pyval);
  _startTemperature : pyval;
  _temperatureChange : pyval;
  _baseLayers : Z;
  _sectionLayers : option Z;
  _cachedSettingsDialog : option string;
  _startTemperatureStr : string;
  _endTemperatureStr : string;
  _temperatureChangeStr : string;
  _materialLabelStr : string;
  _towerDescriptionStr : string
}.

(** What the controller does to its collaborators, in program order. *)
Inductive event : Type :=
| LogEntry (level msg : string)
| Emitted (signal : string)
| CreateQmlComponent (qmlFilePath : string)
| DialogShown
| LoadStlCallback (stlFilePath : string)
| GenerateAndLoadStlCallback (openScadFilename : string)
                             (openScadParameters : gmap string pyval).

Record world : Type := mkWorld {
  self : controller;
  trace : list event
}.

(** ** A state and exception monad

    An exception leaves the mutations made before it in place, as in
    Python. *)
Definition M (A : Type) : Type := world -> result A * world.

Definition ret {A} (a : A) : M A := fun w => (Ok a, w).

Definition bind {A B} (c : M A) (k : A -> M B) : M B :=
  fun w => match c w with
           | (Ok a, w') => k a w'
           | (Raise e, w') => (Raise e, w')
           end.

Definition raise {A} (e : exn) : M A := fun w => (Raise e, w).

Definition lift {A} (r : result A) : M A := fun w => (r, w).

Definition getattr {A} (f : controller -> A) : M A :=
  fun w => (Ok (f (self w)), w).

Definition setattr (upd : controller -> controller) : M unit :=
  fun w => (Ok tt, mkWorld (upd (self w)) (trace w)).

Definition emit (e : event) : M unit :=
  fun w => (Ok tt, mkWorld (self w) (trace w ++ [e])).

Declare Scope py_scope.
Delimit Scope py_scope with py.
Notation "x <~ c ;; k" := (bind c (fun x => k))
  (at level 100, c at next level, right associativity) : py_scope.
Notation "c ;;; k" := (bind c (fun _ => k))
  (at level 100, right associativity) : py_scope.
Open Scope py_scope.

(** ** Attribute updates *)

Definition set_startTemperature (v : pyval) (c : controller) : controller :=
  mkController (_guiPath c) (_stlPath c) (_presetTables c) v
    (_temperatureChange c) (_baseLayers c) (_sectionLayers c)
    (_cachedSettingsDialog c) (_startTemperatureStr c) (_endTemperatureStr c)
    (_temperatureChangeStr c) (_materialLabelStr c) (_towerDescriptionStr c).

Definition set_temperatureChange (v : pyval) (c : controller) : controller :=
  mkController (_guiPath c) (_stlPath c) (_presetTables c)
    (_startTemperature c) v (_baseLayers c) (_sectionLayers c)
    (_cachedSettingsDialog c) (_startTemperatureStr c) (_endTemperatureStr c)
    (_temperatureChangeStr c) (_materialLabelStr c) (_towerDescriptionStr c).

Definition set_baseLayers (n : Z) (c : controller) : controller :=
  mkController (_guiPath c) (_stlPath c) (_presetTables c)
    (_startTemperature c) (_temperatureChange c) n (_sectionLayers c)
    (_cachedSettingsDialog c) (_startTemperatureStr c) (_endTemperatureStr c)
    (_temperatureChangeStr c) (_materialLabelStr c) (_towerDescriptionStr c).

Definition set_sectionLayers (n : Z) (c : controller) : controller :=
  mkController (_guiPath c) (_stlPath c) (_presetTables c)
    (_startTemperature c) (_temperatureChange c) (_baseLayers c) (Some n)
    (_cachedSettingsDialog c) (_startTemperatureStr c) (_endTemperatureStr c)
    (_temperatureChangeStr c) (_materialLabelStr c) (_towerDescriptionStr c).

Definition set_cachedSettingsDialog (d : string) (c : controller) : controller :=
  mkController (_guiPath c) (_stlPath c) (_presetTables c)
    (_startTemperature c) (_temperatureChange c) (_baseLayers c)
    (_sectionLayers c) (Some d) (_startTemperatureStr c)
    (_endTemperatureStr c) (_temperatureChangeStr c) (_materialLabelStr c)
    (_towerDescriptionStr c).

Definition set_startTemperatureStr (v : string) (c : controller) : controller :=
  mkController (_guiPath c) (_stlPath c) (_presetTables c)
    (_startTemperature c) (_temperatureChange c) (_baseLayers c)
    (_sectionLayers c) (_cachedSettingsDialog c) v (_endTemperatureStr c)
    (_temperatureChangeStr c) (_materialLabelStr c) (_towerDescriptionStr c).

Definition set_endTemperatureStr (v : string) (c : controller) : controller :=
  mkController (_guiPath c) (_stlPath c) (_presetTables c)
    (_startTemperature c) (_temperatureChange c) (_baseLayers c)
    (_sectionLayers c) (_cachedSettingsDialog c) (_startTemperatureStr c) v
    (_temperatureChangeStr c) (_materialLabelStr c) (_towerDescriptionStr c).

Definition set_temperatureChangeStr (v : string) (c : controller) : controller :=
  mkController (_guiPath c) (_stlPath c) (_presetTables c)
    (_startTemperature c) (_temperatureChange c) (_baseLayers c)
    (_sectionLayers c) (_cachedSettingsDialog c) (_startTemperatureStr c)
    (_endTemperatureStr c) v (_materialLabelStr c) (_towerDescriptionStr c).

Definition set_materialLabelStr (v : string) (c : controller) : controller :=
  mkController (_guiPath c) (_stlPath c) (_presetTables c)
    (_startTemperature c) (_temperatureChange c) (_baseLayers c)
    (_sectionLayers c) (_cachedSettingsDialog c) (_startTemperatureStr c)
    (_endTemperatureStr c) (_temperatureChangeStr c) v (_towerDescriptionStr c).

Definition set_towerDescriptionStr (v : string) (c : controller) : controller :=
  mkController (_guiPath c) (_stlPath c) (_presetTables c)
    (_startTemperature c) (_temperatureChange c) (_baseLayers c)
    (_sectionLayers c) (_cachedSettingsDialog c) (_startTemperatureStr c)
    (_endTemperatureStr c) (_temperatureChangeStr c) (_materialLabelStr c) v.

(** ** Class attributes *)

Definition _openScadFilename : string := "temptower.scad".

Definition _nominalBaseHeight : Q := 8 # 10.
Definition _nominalSectionHeight : Q := 8 # 1.

Definition preset_entry (filename : string) (start change : Z) : gmap string pyval :=
  <["filename" := PyStr filename]>
    (<["start value" := PyInt start]>
      (<["change value" := PyInt change]> ∅)).

Definition TempTowerController_presetTables : gmap string (gmap string pyval) :=
  <["aba" := preset_entry "temptower-aba.stl" 260 5]>
  (<["abs" := preset_entry "temptower-abs.stl" 250 5]>
  (<["nylon" := preset_entry "temptower-nylon.stl" 260 5]>
  (<["pc" := preset_entry "temptower-pc.stl" 310 5]>
  (<["petg" := preset_entry "temptower-petg.stl" 250 5]>
  (<["pla" := preset_entry "temptower-pla.stl" 230 5]>
  (<["pla+" := preset_entry "temptower-pla+.stl" 230 5]>
  (<["tpu" := preset_entry "temptower-tpu.stl" 230 5]> ∅))))))).

(** [__init__]: the three numeric attributes are set, [_sectionLayers] is
    not; the dialog strings and the settings dialog start at their class
    values. *)
Definition __init__ (guiPath stlPath : string) : controller :=
  {| _guiPath := guiPath;
     _stlPath := stlPath;
     _presetTables := TempTowerController_presetTables;
     _startTemperature := PyInt 0;
     _temperatureChange := PyInt 0;
     _baseLayers := 0;
     _sectionLayers := None;
     _cachedSettingsDialog := None;
     _startTemperatureStr := "220";
     _endTemperatureStr := "180";
     _temperatureChangeStr := "-5";
     _materialLabelStr := EmptyString;
     _towerDescriptionStr := EmptyString |}.

(** ** The methods *)

Definition dq : string := String "034"%char EmptyString.

(** The four messages [_loadPreset] logs at level ['e']. *)
Definition msg_unknown_preset (presetName : string) : string :=
  "A TempTower preset named " +:+ dq +:+ presetName +:+ dq +:+
  " was requested, but has not been correctly defined".

Definition msg_no_filename (presetName : string) : string :=
  "The " +:+ dq +:+ "filename" +:+ dq +:+
  " entry for TempTower preset table " +:+ dq +:+ presetName +:+ dq +:+
  " has not been defined".

Definition msg_no_start_value (presetName : string) : string :=
  "The " +:+ dq +:+ "start value" +:+ dq +:+
  " for TempTower preset table " +:+ dq +:+ presetName +:+ dq +:+
  " has not been defined".

Definition msg_no_change_value (presetName : string) : string :=
  "The " +:+ dq +:+ "change value" +:+ dq +:+
  " for TempTower preset table " +:+ dq +:+ presetName +:+ dq +:+
  " has not been defined".

Definition Logger_log (level msg : string) : M unit := emit (LogEntry level msg).

(** [a / b] on floats. *)
Definition truediv (a b : Q) : M Q :=
  if Qeq_bool b 0 then raise ZeroDivisionError else ret (a / b)%Q.

(** [math.ceil] *)
Definition math_ceil (x : Q) : Z := Qceiling x.

Section Controller.

(** [float(s)] for a string [s]; [None] stands for [ValueError]. *)
Variable py_float : string -> option Q.
(** [os.path.join] on two strings. *)
Variable path_join : string -> string -> string.
(** [TempTower_PostProcessing.execute]. *)
Variable execute :
  list string -> pyval -> pyval -> Z -> Z -> result (list string).

Definition float (s : string) : M Q :=
  match py_float s with
  | Some q => ret q
  | None => raise ValueError
  end.

Definition os_path_join (a : string) (b : pyval) : M string :=
  match b with
  | PyStr f => ret (path_join a f)
  | _ => raise TypeError
  end.

Definition setStartTemperatureStr (value : string) : M unit :=
  setattr (set_startTemperatureStr value) ;;;
  emit (Emitted "startTemperatureStrChanged").

Definition setEndTemperatureStr (value : string) : M unit :=
  setattr (set_endTemperatureStr value) ;;;
  emit (Emitted "endTemperatureStrChanged").

Definition setTemperatureChangeStr (value : string) : M unit :=
  setattr (set_temperatureChangeStr value) ;;;
  emit (Emitted "temperatureChangeStrChanged").

Definition setMaterialLabelStr (value : string) : M unit :=
  setattr (set_materialLabelStr value) ;;;
  emit (Emitted "materialLabelStrChanged").

Definition setTowerDescriptionStr (value : string) : M unit :=
  setattr (set_towerDescriptionStr value) ;;;
  emit (Emitted "towerDescriptionStrChanged").

(** The lazily created settings dialog. *)
Definition _settingsDialog : M string :=
  cached <~ getattr _cachedSettingsDialog ;;
  match cached with
  | Some d => ret d
  | None =>
      guiPath <~ getattr _guiPath ;;
      let qmlFilePath := path_join guiPath "TempTowerDialog.qml" in
      emit (CreateQmlComponent qmlFilePath) ;;;
      setattr (set_cachedSettingsDialog qmlFilePath) ;;;
      ret qmlFilePath
  end.

(** [layerHeight] is what the host answers to the layer-height query made
    in the body. *)
Definition _loadPreset (presetName : string) (layerHeight : Q) : M unit :=
  tables <~ getattr _presetTables ;;
  match tables !! presetName with
  | None => Logger_log "e" (msg_unknown_preset presetName)
  | Some presetTable =>
    match presetTable !! "filename" with
    | None => Logger_log "e" (msg_no_filename presetName)
    | Some stlFileName =>
      match presetTable !! "start value" with
      | None => Logger_log "e" (msg_no_start_value presetName)
      | Some startValue =>
        setattr (set_startTemperature startValue) ;;;
        match presetTable !! "change value" with
        | None => Logger_log "e" (msg_no_change_value presetName)
        | Some changeValue =>
          setattr (set_temperatureChange changeValue) ;;;
          b <~ truediv _nominalBaseHeight layerHeight ;;
          setattr (set_baseLayers (math_ceil b)) ;;;
          s <~ truediv _nominalSectionHeight layerHeight ;;
          setattr (set_sectionLayers (math_ceil s)) ;;;
          stlPath <~ getattr _stlPath ;;
          stlFilePath <~ os_path_join stlPath stlFileName ;;
          emit (LoadStlCallback stlFilePath)
        end
      end
    end
  end.

Definition generate (preset : string) (layerHeight : Q) : M unit :=
  if negb (String.eqb preset EmptyString)
  then _loadPreset preset layerHeight
  else (_settingsDialog ;;; emit DialogShown).

(** Reading [self._sectionLayers]. *)
Definition get_sectionLayers : M Z :=
  fun w => match _sectionLayers (self w) with
           | Some n => (Ok n, w)
           | None => (Raise AttributeError, w)
           end.

Definition dialogAccepted (layerHeight : Q) : M unit :=
  startTemperature <~ (s <~ getattr _startTemperatureStr ;; float s) ;;
  endTemperature <~ (s <~ getattr _endTemperatureStr ;; float s) ;;
  temperatureChange <~ (s <~ getattr _temperatureChangeStr ;; float s) ;;
  materialLabel <~ getattr _materialLabelStr ;;
  towerDescription <~ getattr _towerDescriptionStr ;;
  b <~ truediv _nominalBaseHeight layerHeight ;;
  setattr (set_baseLayers (math_ceil b)) ;;;
  baseLayers <~ getattr _baseLayers ;;
  let baseHeight := (inject_Z baseLayers * layerHeight)%Q in
  s <~ truediv _nominalSectionHeight layerHeight ;;
  setattr (set_sectionLayers (math_ceil s)) ;;;
  sectionLayers <~ get_sectionLayers ;;
  let sectionHeight := (inject_Z sectionLayers * layerHeight)%Q in
  let temperatureChange :=
    if Qle_bool startTemperature endTemperature
    then Qabs temperatureChange
    else (- Qabs temperatureChange)%Q in
  setattr (set_startTemperature (PyFloat startTemperature)) ;;;
  setattr (set_temperatureChange (PyFloat temperatureChange)) ;;;
  let openScadParameters : gmap string pyval :=
    <["Tower_Label" := PyStr towerDescription]>
    (<["Column_Label" := PyStr materialLabel]>
    (<["Section_Height" := PyFloat sectionHeight]>
    (<["Base_Height" := PyFloat baseHeight]>
    (<["Value_Change" := PyFloat temperatureChange]>
    (<["Ending_Value" := PyFloat endTemperature]>
    (<["Starting_Value" := PyFloat startTemperature]> ∅)))))) in
  emit (GenerateAndLoadStlCallback _openScadFilename openScadParameters).

Definition postProcess (gcode : list string) : M (list string) :=
  startTemperature <~ (s <~ getattr _startTemperatureStr ;; float s) ;;
  temperatureChange <~ (s <~ getattr _temperatureChangeStr ;; float s) ;;
  startValue <~ getattr _startTemperature ;;
  valueChange <~ getattr _temperatureChange ;;
  sectionLayers <~ get_sectionLayers ;;
  baseLayers <~ getattr _baseLayers ;;
  lift (execute gcode startValue valueChange sectionLayers baseLayers).

End Controller.

(** ** The Instruction Rewriter *)

(** Modelled from the spec: the Instruction Rewriter, i.e. the module
    [scripts/TempTower_PostProcessing] that [postProcess] calls and that is
    not among the source files.  The spec (4.3) gives it as a layer-counting
    state machine: [currentLayerIndex] starts at 0 and goes up by one per
    layer-boundary marker; the section index of a layer is
    [max(0, floor((currentLayerIndex - baseLayers) / sectionLayers))]; a
    temperature-set instruction carrying
    [startTemperature + sectionIndex * temperatureChange] is put right after
    the marker of each layer whose index is
    [baseLayers + sectionIndex * sectionLayers] for some [sectionIndex >= 0];
    every other line passes through; a stream without any marker is
    [MalformedInstructionStream].  Layers are numbered from 0, the first
    marker opening layer 0, as the spec's 84-layer scenario has it (the stream
    ends at 84 exclusive).  The text of the marker and of the instruction is
    left open by the spec and is a parameter here. *)
Record TowerSchedule : Type := mkSchedule {
  baseLayers : Z;
  sectionLayers : Z;
  startTemperature : Q;
  temperatureChange : Q
}.

Inductive rewrite_error : Type := MalformedInstructionStream.

Section Rewriter.

Variable is_layer_marker : string -> bool.
Variable set_temperature : Q -> string.

(** Modelled from the spec: the section index derived from the layer index
    (4.3, State). *)
Definition currentSectionIndex (sched : TowerSchedule) (currentLayerIndex : Z) : Z :=
  Z.max 0 ((currentLayerIndex - baseLayers sched) / sectionLayers sched).

(** Modelled from the spec: the temperature derived from the section index
    (4.3, State). *)
Definition currentTemperature (sched : TowerSchedule) (currentLayerIndex : Z) : Q :=
  (startTemperature sched
   + inject_Z (currentSectionIndex sched currentLayerIndex)
     * temperatureChange sched)%Q.

(** Modelled from the spec: the layer is the first of a section, i.e.
    [currentLayerIndex == baseLayers + sectionIndex * sectionLayers] for
    some [sectionIndex >= 0] (4.3, Transition rule). *)
Definition first_layer_of_section (sched : TowerSchedule) (currentLayerIndex : Z) : bool :=
  (baseLayers sched <=? currentLayerIndex)
  && ((currentLayerIndex - baseLayers sched) mod sectionLayers sched =? 0).

(** Modelled from the spec: the single forward pass of the Rewriter. *)
Fixpoint scan (sched : TowerSchedule) (currentLayerIndex : Z)
         (stream : list string) : list string :=
  match stream with
  | [] => []
  | l :: rest =>
      if is_layer_marker l then
        if first_layer_of_section sched currentLayerIndex then
          l :: set_temperature (currentTemperature sched currentLayerIndex)
            :: scan sched (currentLayerIndex + 1) rest
        else l :: scan sched (currentLayerIndex + 1) rest
      else l :: scan sched currentLayerIndex rest
  end.


(** [L], the number of layers of a stream. *)
Definition layer_count (stream : list string) : Z :=
  Z.of_nat (length (filter (fun l => is_layer_marker l = true) stream)).

(** Modelled from the spec: [rewrite(instructionStream, schedule)], which
    fails on a stream without layer markers. *)
Definition rewrite (stream : list string) (sched : TowerSchedule)
  : rewrite_error + list string :=
  if layer_count stream =? 0 then inl MalformedInstructionStream
  else inr (scan sched 0 stream).

End Rewriter.



(** ** Instances used in the examples *)

(** Plain decimal literals: an optional sign, digits, an optional fraction. *)
Definition digit_of (c : ascii) : option Z :=
  let n := Z.of_nat (nat_of_ascii c) in
  if (48 <=? n) && (n <=? 57) then Some (n - 48) else None.

Fixpoint read_digits (s : string) (acc : Z) (n : nat) : Z * nat * string :=
  match s with
  | EmptyString => (acc, n, EmptyString)
  | String c r =>
      match digit_of c with
      | Some d => read_digits r (10 * acc + d) (S n)
      | None => (acc, n, s)
      end
  end.

Definition decimal_unsigned (s : string) : option Q :=
  let '(i, ni, r) := read_digits s 0 0 in
  match r with
  | EmptyString => if (ni =? 0)%nat then None else Some (inject_Z i)
  | String "."%char r' =>
      let '(f, nf, r'') := read_digits r' 0 0 in
      match r'' with
      | EmptyString =>
          if (ni + nf =? 0)%nat then None
          else Some (inject_Z i + Qmake f (Pos.pow 10 (Pos.of_nat nf)))%Q
      | _ => None
      end
  | _ => None
  end.

Definition decimal_float (s : string) : option Q :=
  match s with
  | String "-"%char r => option_map Qopp (decimal_unsigned r)
  | String "+"%char r => decimal_unsigned r
  | _ => decimal_unsigned s
  end.

(** [posixpath.join] on two components. *)
Definition posix_join (a b : string) : string :=
  if String.prefix "/" b then b
  else if String.eqb a EmptyString then b
  else if String.eqb (substring (String.length a - 1) 1 a) "/" then a +:+ b
  else a +:+ "/" +:+ b.

Definition cura_layer_marker (l : string) : bool := String.prefix ";LAYER:" l.

Definition m104 (t : Q) : string :=
  "M104 S" +:+ pretty (Qnum t) +:+ "/" +:+ pretty (Z.pos (Qden t)).

(** ** Sample worlds, and the notions the statements use *)

Definition w0 : world := mkWorld (__init__ "/gui" "/stl") [].

Definition Qsign (q : Q) : Z := Z.sgn (Qnum q).

Definition w_equal_ends : world :=
  mkWorld
    (set_temperatureChangeStr "5"
       (set_endTemperatureStr "200"
          (set_startTemperatureStr "200" (__init__ "/gui" "/stl"))))
    [].

Inductive preset_field : Type := Filename | StartValue | ChangeValue.

Definition field_key (f : preset_field) : string :=
  match f with
  | Filename => "filename"
  | StartValue => "start value"
  | ChangeValue => "change value"
  end.

(** The two kinds of lookup failure, told apart by what is logged. *)
Inductive lookup_failure : Type :=
| UnknownPreset
| IncompletePresetEntry (missing : preset_field).

Definition failure_message (f : lookup_failure) (presetName : string) : string :=
  match f with
  | UnknownPreset => msg_unknown_preset presetName
  | IncompletePresetEntry Filename => msg_no_filename presetName
  | IncompletePresetEntry StartValue => msg_no_start_value presetName
  | IncompletePresetEntry ChangeValue => msg_no_change_value presetName
  end.

(** A lookup failure in the words of the specification: the name is unknown, or the
    entry lacks its filename, start value or change value. *)
Definition lookup_fails (tables : gmap string (gmap string pyval))
           (presetName : string) : Prop :=
  tables !! presetName = None
  \/ exists presetTable, tables !! presetName = Some presetTable
       /\ exists f, presetTable !! field_key f = None.

Definition incomplete_tables : gmap string (gmap string pyval) :=
  <["draft" := <["filename" := PyStr "temptower-draft.stl"]>
                 (<["start value" := PyInt 240]> ∅)]> ∅.

Definition w_incomplete : world :=
  mkWorld
    {| _guiPath := "/gui";
       _stlPath := "/stl";
       _presetTables := incomplete_tables;
       _startTemperature := PyInt 0;
       _temperatureChange := PyInt 0;
       _baseLayers := 0;
       _sectionLayers := None;
       _cachedSettingsDialog := None;
       _startTemperatureStr := "220";
       _endTemperatureStr := "180";
       _temperatureChangeStr := "-5";
       _materialLabelStr := EmptyString;
       _towerDescriptionStr := EmptyString |}
    [].

(** What one run of [_loadPreset] appended to the trace. *)
Inductive preset_outcome path_join (w : world) (presetName : string) (lh : Q)
  : Prop :=
| outcome_failed (f : lookup_failure)
    (Hrun : exists c, _loadPreset path_join presetName lh w
                      = (Ok tt, mkWorld c
                           (trace w ++ [LogEntry "e" (failure_message f presetName)])))
    (Hwhy : match f with
            | UnknownPreset => _presetTables (self w) !! presetName = None
            | IncompletePresetEntry fld =>
                exists t, _presetTables (self w) !! presetName = Some t
                          /\ t !! field_key fld = None
            end)
| outcome_found (t : gmap string pyval) (fn sv cv : pyval)
    (Htab : _presetTables (self w) !! presetName = Some t)
    (Hfn : t !! "filename" = Some fn)
    (Hsv : t !! "start value" = Some sv)
    (Hcv : t !! "change value" = Some cv).

(** The method calls the host and the dialog make on the controller. *)
Inductive call : Type :=
| SetStartTemperatureStr (value : string)
| SetEndTemperatureStr (value : string)
| SetTemperatureChangeStr (value : string)
| SetMaterialLabelStr (value : string)
| SetTowerDescriptionStr (value : string)
| Generate (preset : string) (layerHeight : Q)
| DialogAccepted (layerHeight : Q).

Definition do_call py_float path_join (c : call) : M unit :=
  match c with
  | SetStartTemperatureStr v => setStartTemperatureStr v
  | SetEndTemperatureStr v => setEndTemperatureStr v
  | SetTemperatureChangeStr v => setTemperatureChangeStr v
  | SetMaterialLabelStr v => setMaterialLabelStr v
  | SetTowerDescriptionStr v => setTowerDescriptionStr v
  | Generate preset lh => generate path_join preset lh
  | DialogAccepted lh => dialogAccepted py_float lh
  end.

Definition pyval_number (v : pyval) : option Q :=
  match v with
  | PyInt z => Some (inject_Z z)
  | PyFloat q => Some q
  | PyStr _ => None
  end.

(** The modelled Rewriter behind the interface [postProcess] calls. *)
Definition rewriter_execute (gcode : list string) (startValue valueChange : pyval)
           (sectionLayers baseLayers : Z) : result (list string) :=
  match pyval_number startValue, pyval_number valueChange with
  | Some st, Some ch =>
      match rewrite cura_layer_marker m104 gcode
                    (mkSchedule baseLayers sectionLayers st ch) with
      | inr out => Ok out
      | inl MalformedInstructionStream =>
          Raise (HostError "MalformedInstructionStream")
      end
  | _, _ => Raise TypeError
  end.

Definition w_garbled : world :=
  mkWorld (set_startTemperatureStr "hot" (__init__ "/gui" "/stl")) [].

Definition sample_gcode : list string :=
  [";LAYER:0"; "G1 X0 Y0"; ";LAYER:1"; "G1 X1 Y1"].

Definition w_pla : world := snd (_loadPreset posix_join "pla" (2 # 10) w0).





(** ** Sequences of calls, and what the statements about them use *)

(** The host and the dialog call the methods one after the other; an
    exception ends the call it occurs in, not the ones that follow. *)
Fixpoint run_calls py_float path_join (cs : list call) (w : world) : world :=
  match cs with
  | [] => w
  | c :: cs' =>
      run_calls py_float path_join cs' (snd (do_call py_float path_join c w))
  end.

Definition is_setter (c : call) : bool :=
  match c with
  | Generate _ _ | DialogAccepted _ => false
  | _ => true
  end.

(** Two setter calls on the same dialog property. *)
Definition same_property (c1 c2 : call) : bool :=
  match c1, c2 with
  | SetStartTemperatureStr _, SetStartTemperatureStr _
  | SetEndTemperatureStr _, SetEndTemperatureStr _
  | SetTemperatureChangeStr _, SetTemperatureChangeStr _
  | SetMaterialLabelStr _, SetMaterialLabelStr _
  | SetTowerDescriptionStr _, SetTowerDescriptionStr _ => true
  | _, _ => false
  end.

(** The change signal of a setter call, and the value it was given. *)
Definition setter_signal (c : call) : option (string * string) :=
  match c with
  | SetStartTemperatureStr v => Some ("startTemperatureStrChanged", v)
  | SetEndTemperatureStr v => Some ("endTemperatureStrChanged", v)
  | SetTemperatureChangeStr v => Some ("temperatureChangeStrChanged", v)
  | SetMaterialLabelStr v => Some ("materialLabelStrChanged", v)
  | SetTowerDescriptionStr v => Some ("towerDescriptionStrChanged", v)
  | _ => None
  end.

(** The property getter that goes with a setter call. *)
Definition setter_getter (c : call) (s : controller) : option string :=
  match c with
  | SetStartTemperatureStr _ => Some (_startTemperatureStr s)
  | SetEndTemperatureStr _ => Some (_endTemperatureStr s)
  | SetTemperatureChangeStr _ => Some (_temperatureChangeStr s)
  | SetMaterialLabelStr _ => Some (_materialLabelStr s)
  | SetTowerDescriptionStr _ => Some (_towerDescriptionStr s)
  | _ => None
  end.

Definition dialog_strings (s : controller)
  : string * string * string * string * string :=
  (_startTemperatureStr s, _endTemperatureStr s, _temperatureChangeStr s,
   _materialLabelStr s, _towerDescriptionStr s).

Definition stored_schedule (s : controller) : pyval * pyval * Z * option Z :=
  (_startTemperature s, _temperatureChange s, _baseLayers s, _sectionLayers s).

Definition configuration (s : controller)
  : string * string * gmap string (gmap string pyval) :=
  (_guiPath s, _stlPath s, _presetTables s).

Definition is_creation (e : event) : bool :=
  match e with
  | CreateQmlComponent _ => true
  | _ => false
  end.

(** How many times the dialog component was created. *)
Definition creations (tr : list event) : nat :=
  length (List.filter is_creation tr).


Definition is_number (v : pyval) : bool :=
  match v with
  | PyInt _ | PyFloat _ => true
  | PyStr _ => false
  end.

Definition w_cached : world := snd (_settingsDialog posix_join w0).

(** Every start and change value of the tables is a number. *)
Definition table_numeric (tables : gmap string (gmap string pyval)) : Prop :=
  forall presetName t v,
    tables !! presetName = Some t ->
    t !! "start value" = Some v \/ t !! "change value" = Some v ->
    is_number v = true.

(** The stored start temperature and change are numbers, and the tables
    can only supply numbers. *)
Definition schedule_numeric (s : controller) : Prop :=
  table_numeric (_presetTables s)
  /\ is_number (_startTemperature s) = true
  /\ is_number (_temperatureChange s) = true.

(** ** Running the methods *)

Ltac run_py :=
  cbv beta iota delta
    [bind ret raise lift getattr setattr emit float truediv Logger_log
     os_path_join get_sectionLayers]; cbn [self trace].

Ltac step H := rewrite H; cbv beta iota; cbn [self trace].


Lemma Qeq_bool_neg_false (x : Q) : (x < 0)%Q -> Qeq_bool x 0 = false.
Proof.
  intros Hneg. destruct (Qeq_bool x 0) eqn:E; [|reflexivity].
  apply Qeq_bool_eq in E. rewrite E in Hneg. discriminate.
Qed.

(** The custom path when the three strings are numeric and the layer height
    is not zero: the whole final state. *)
Lemma dialogAccepted_run py_float (w : world) (lh st en ch : Q) :
  py_float (_startTemperatureStr (self w)) = Some st ->
  py_float (_endTemperatureStr (self w)) = Some en ->
  py_float (_temperatureChangeStr (self w)) = Some ch ->
  Qeq_bool lh 0 = false ->
  let b := math_ceil (_nominalBaseHeight / lh) in
  let s := math_ceil (_nominalSectionHeight / lh) in
  let tc := if Qle_bool st en then Qabs ch else (- Qabs ch)%Q in
  dialogAccepted py_float lh w =
  (Ok tt,
   mkWorld
     (set_temperatureChange (PyFloat tc)
        (set_startTemperature (PyFloat st)
           (set_sectionLayers s (set_baseLayers b (self w)))))
     (trace w ++
      [GenerateAndLoadStlCallback _openScadFilename
         (<["Tower_Label" := PyStr (_towerDescriptionStr (self w))]>
         (<["Column_Label" := PyStr (_materialLabelStr (self w))]>
         (<["Section_Height" := PyFloat (inject_Z s * lh)]>
         (<["Base_Height" := PyFloat (inject_Z b * lh)]>
         (<["Value_Change" := PyFloat tc]>
         (<["Ending_Value" := PyFloat en]>
         (<["Starting_Value" := PyFloat st]> ∅)))))))])).
Proof.
  intros Hst Hen Hch Hlh b s tc. unfold dialogAccepted. run_py.
  step Hst. step Hen. step Hch. step Hlh. reflexivity.
Qed.

Lemma dialogAccepted_zero py_float (w : world) (lh st en ch : Q) :
  py_float (_startTemperatureStr (self w)) = Some st ->
  py_float (_endTemperatureStr (self w)) = Some en ->
  py_float (_temperatureChangeStr (self w)) = Some ch ->
  Qeq_bool lh 0 = true ->
  dialogAccepted py_float lh w = (Raise ZeroDivisionError, w).
Proof.
  intros Hst Hen Hch Hlh. unfold dialogAccepted. run_py.
  step Hst. step Hen. step Hch. step Hlh. reflexivity.
Qed.

(** A non-numeric dialog string stops the custom path before anything is
    stored. *)
Lemma dialogAccepted_ValueError py_float (w : world) (lh : Q) :
  py_float (_startTemperatureStr (self w)) = None
  \/ py_float (_endTemperatureStr (self w)) = None
  \/ py_float (_temperatureChangeStr (self w)) = None ->
  dialogAccepted py_float lh w = (Raise ValueError, w).
Proof.
  intros H. unfold dialogAccepted. run_py.
  destruct (py_float (_startTemperatureStr (self w))) eqn:Hst;
    cbv beta iota; cbn [self trace]; [|reflexivity].
  destruct (py_float (_endTemperatureStr (self w))) eqn:Hen;
    cbv beta iota; cbn [self trace]; [|reflexivity].
  destruct (py_float (_temperatureChangeStr (self w))) eqn:Hch;
    cbv beta iota; cbn [self trace]; [|reflexivity].
  destruct H as [H|[H|H]]; discriminate.
Qed.



(** The four ways the lookup stops. *)
Lemma loadPreset_unknown path_join (w : world) (presetName : string) (lh : Q) :
  _presetTables (self w) !! presetName = None ->
  _loadPreset path_join presetName lh w =
  (Ok tt, mkWorld (self w)
            (trace w ++ [LogEntry "e" (msg_unknown_preset presetName)])).
Proof.
  intros Htab. unfold _loadPreset. run_py. step Htab. reflexivity.
Qed.

Lemma loadPreset_no_filename path_join (w : world) (presetName : string)
      (lh : Q) (presetTable : gmap string pyval) :
  _presetTables (self w) !! presetName = Some presetTable ->
  presetTable !! "filename" = None ->
  _loadPreset path_join presetName lh w =
  (Ok tt, mkWorld (self w)
            (trace w ++ [LogEntry "e" (msg_no_filename presetName)])).
Proof.
  intros Htab Hfn. unfold _loadPreset. run_py. step Htab. step Hfn.
  reflexivity.
Qed.

Lemma loadPreset_no_start_value path_join (w : world) (presetName : string)
      (lh : Q) (presetTable : gmap string pyval) (fn : pyval) :
  _presetTables (self w) !! presetName = Some presetTable ->
  presetTable !! "filename" = Some fn ->
  presetTable !! "start value" = None ->
  _loadPreset path_join presetName lh w =
  (Ok tt, mkWorld (self w)
            (trace w ++ [LogEntry "e" (msg_no_start_value presetName)])).
Proof.
  intros Htab Hfn Hsv. unfold _loadPreset. run_py.
  step Htab. step Hfn. step Hsv. reflexivity.
Qed.

Lemma loadPreset_no_change_value path_join (w : world) (presetName : string)
      (lh : Q) (presetTable : gmap string pyval) (fn sv : pyval) :
  _presetTables (self w) !! presetName = Some presetTable ->
  presetTable !! "filename" = Some fn ->
  presetTable !! "start value" = Some sv ->
  presetTable !! "change value" = None ->
  _loadPreset path_join presetName lh w =
  (Ok tt, mkWorld (set_startTemperature sv (self w))
            (trace w ++ [LogEntry "e" (msg_no_change_value presetName)])).
Proof.
  intros Htab Hfn Hsv Hcv. unfold _loadPreset. run_py.
  step Htab. step Hfn. step Hsv. step Hcv. reflexivity.
Qed.

(** ** Rounding up *)









Lemma Qsign_Qabs (q : Q) : ~ (q == 0)%Q -> Qsign (Qabs q) = 1.
Proof.
  destruct q as [n d]. unfold Qeq, Qsign. cbn. intros Hn.
  apply Z.sgn_pos_iff. lia.
Qed.

Lemma Qsign_Qopp (q : Q) : Qsign (- q) = - Qsign q.
Proof. destruct q as [n d]. unfold Qsign. cbn. apply Z.sgn_opp. Qed.

Lemma Qsign_minus_pos (a b : Q) : (a < b)%Q -> Qsign (b - a) = 1.
Proof.
  destruct a as [an ad], b as [bn bd]. unfold Qlt, Qsign. cbn. intros H.
  apply Z.sgn_pos_iff. lia.
Qed.

Lemma Qsign_minus_neg (a b : Q) : (b < a)%Q -> Qsign (b - a) = -1.
Proof.
  destruct a as [an ad], b as [bn bd]. unfold Qlt, Qsign. cbn. intros H.
  apply Z.sgn_neg_iff. lia.
Qed.

(** Start and end both 200, requested change 5: the stored change is 5,
    whose sign is not that of end - start, and it is not 0. *)
Lemma C3_counterexample :
  exists w', dialogAccepted decimal_float (2 # 10) w_equal_ends = (Ok tt, w')
             /\ _startTemperature (self w') = PyFloat 200
             /\ decimal_float (_endTemperatureStr (self w')) = Some 200%Q
             /\ _temperatureChange (self w') = PyFloat 5
             /\ Qsign 5 <> Qsign (200 - 200)
             /\ ~ (5 == 0)%Q.
Proof.
  eexists. split; [vm_compute; reflexivity|].
  repeat (split; [reflexivity|]). split; discriminate.
Qed.

(** C3 (amended): on the custom path the stored temperatureChange is the
    absolute value of the requested change when the end temperature is at
    least the start temperature, and minus that absolute value otherwise.
    Its absolute value is that of the request; it is non-negative when
    end >= start and non-positive when end < start; and
    sign(temperatureChange) = sign(end - start) whenever end differs from
    start and the request is not zero. *)
Theorem C3_sign_correction py_float (w : world) (lh st en ch : Q) :
  py_float (_startTemperatureStr (self w)) = Some st ->
  py_float (_endTemperatureStr (self w)) = Some en ->
  py_float (_temperatureChangeStr (self w)) = Some ch ->
  ~ (lh == 0)%Q ->
  exists w' tc,
    dialogAccepted py_float lh w = (Ok tt, w')
    /\ _temperatureChange (self w') = PyFloat tc
    /\ (Qabs tc == Qabs ch)%Q
    /\ ((st <= en)%Q -> tc = Qabs ch /\ (0 <= tc)%Q)
    /\ ((en < st)%Q -> tc = (- Qabs ch)%Q /\ (tc <= 0)%Q)
    /\ (~ (ch == 0)%Q -> ~ (st == en)%Q -> Qsign tc = Qsign (en - st)).
Proof.
  intros Hst Hen Hch Hlh.
  assert (Hz : Qeq_bool lh 0 = false).
  { destruct (Qeq_bool lh 0) eqn:E; [|reflexivity].
    apply Qeq_bool_eq in E. contradiction. }
  eexists. eexists.
  split; [apply (dialogAccepted_run _ _ _ _ _ _ Hst Hen Hch Hz)|].
  split; [reflexivity|].
  destruct (Qle_bool st en) eqn:Hle.
  - apply Qle_bool_iff in Hle.
    split; [rewrite Qabs_pos by apply Qabs_nonneg; reflexivity|].
    split; [intros _; split; [reflexivity | apply Qabs_nonneg]|].
    split; [intros Hlt; exfalso; apply (Qlt_not_le _ _ Hlt), Hle|].
    intros Hch0 Hne. rewrite Qsign_Qabs by exact Hch0.
    symmetry. apply Qsign_minus_pos.
    apply Qle_lt_or_eq in Hle. destruct Hle as [Hlt|Heq]; [exact Hlt|].
    contradiction.
  - assert (Hlt : (en < st)%Q).
    { apply Qnot_le_lt. intros H. apply Qle_bool_iff in H. congruence. }
    split; [rewrite Qabs_opp, Qabs_pos by apply Qabs_nonneg; reflexivity|].
    split; [intros H; exfalso; apply (Qlt_not_le _ _ Hlt), H|].
    split.
    { intros _. split; [reflexivity|].
      rewrite <- (Qopp_involutive 0). apply Qopp_le_compat.
      apply Qabs_nonneg. }
    intros Hch0 _. rewrite Qsign_Qopp, Qsign_Qabs by exact Hch0.
    symmetry. apply Qsign_minus_neg. exact Hlt.
Qed.

(** The default dialog values 220, 180 and -5. *)
Lemma C3_witness :
  exists w' tc,
    dialogAccepted decimal_float (2 # 10) w0 = (Ok tt, w')
    /\ _temperatureChange (self w') = PyFloat tc
    /\ (Qabs tc == Qabs (-5))%Q
    /\ ((220 <= 180)%Q -> tc = Qabs (-5) /\ (0 <= tc)%Q)
    /\ ((180 < 220)%Q -> tc = (- Qabs (-5))%Q /\ (tc <= 0)%Q)
    /\ (~ (-5 == 0)%Q -> ~ (220 == 180)%Q -> Qsign tc = Qsign (180 - 220)).
Proof.
  assert (Hlh : ~ (2 # 10 == 0)%Q) by discriminate.
  exact (C3_sign_correction decimal_float w0 (2 # 10) 220 180 (-5)
           eq_refl eq_refl eq_refl Hlh).
Defined.

(** C8: on the custom path the mapping handed to the geometry generator
    has exactly the seven keys Starting_Value, Ending_Value, Value_Change,
    Base_Height, Section_Height, Column_Label and Tower_Label; the first two
    hold the parsed dialog temperatures, Value_Change the sign-corrected
    change that is also stored, Base_Height = baseLayers * layerHeight,
    Section_Height = sectionLayers * layerHeight, and the labels are the
    dialog strings. *)
Theorem C8_openscad_parameters py_float (w : world) (lh st en ch : Q) :
  py_float (_startTemperatureStr (self w)) = Some st ->
  py_float (_endTemperatureStr (self w)) = Some en ->
  py_float (_temperatureChangeStr (self w)) = Some ch ->
  ~ (lh == 0)%Q ->
  exists w' (p : gmap string pyval) (b s : Z) (tc : Q),
    dialogAccepted py_float lh w = (Ok tt, w')
    /\ trace w' = trace w ++ [GenerateAndLoadStlCallback "temptower.scad" p]
    /\ _baseLayers (self w') = b
    /\ _sectionLayers (self w') = Some s
    /\ _temperatureChange (self w') = PyFloat tc
    /\ tc = (if Qle_bool st en then Qabs ch else - Qabs ch)%Q
    /\ dom p = list_to_set
                 ["Starting_Value"; "Ending_Value"; "Value_Change";
                  "Base_Height"; "Section_Height"; "Column_Label";
                  "Tower_Label"]
    /\ p !! "Starting_Value" = Some (PyFloat st)
    /\ p !! "Ending_Value" = Some (PyFloat en)
    /\ p !! "Value_Change" = Some (PyFloat tc)
    /\ p !! "Base_Height" = Some (PyFloat (inject_Z b * lh))
    /\ p !! "Section_Height" = Some (PyFloat (inject_Z s * lh))
    /\ p !! "Column_Label" = Some (PyStr (_materialLabelStr (self w)))
    /\ p !! "Tower_Label" = Some (PyStr (_towerDescriptionStr (self w))).
Proof.
  intros Hst Hen Hch Hlh.
  assert (Hz : Qeq_bool lh 0 = false).
  { destruct (Qeq_bool lh 0) eqn:E; [|reflexivity].
    apply Qeq_bool_eq in E. contradiction. }
  do 5 eexists.
  split; [apply (dialogAccepted_run _ _ _ _ _ _ Hst Hen Hch Hz)|].
  split; [reflexivity|]. split; [reflexivity|]. split; [reflexivity|].
  split; [reflexivity|]. split; [reflexivity|].
  split.
  { rewrite !dom_insert_L, dom_empty_L. cbn [list_to_set foldr]. set_solver. }
  repeat split; by simplify_map_eq.
Qed.

(** The default dialog values at layer height 0.2. *)
Lemma C8_witness :
  exists w' (p : gmap string pyval) (b s : Z) (tc : Q),
    dialogAccepted decimal_float (2 # 10) w0 = (Ok tt, w')
    /\ trace w' = trace w0 ++ [GenerateAndLoadStlCallback "temptower.scad" p]
    /\ _baseLayers (self w') = b
    /\ _sectionLayers (self w') = Some s
    /\ _temperatureChange (self w') = PyFloat tc
    /\ tc = (if Qle_bool 220 180 then Qabs (-5) else - Qabs (-5))%Q
    /\ dom p = list_to_set
                 ["Starting_Value"; "Ending_Value"; "Value_Change";
                  "Base_Height"; "Section_Height"; "Column_Label";
                  "Tower_Label"]
    /\ p !! "Starting_Value" = Some (PyFloat 220)
    /\ p !! "Ending_Value" = Some (PyFloat 180)
    /\ p !! "Value_Change" = Some (PyFloat tc)
    /\ p !! "Base_Height" = Some (PyFloat (inject_Z b * (2 # 10)))
    /\ p !! "Section_Height" = Some (PyFloat (inject_Z s * (2 # 10)))
    /\ p !! "Column_Label" = Some (PyStr (_materialLabelStr (self w0)))
    /\ p !! "Tower_Label" = Some (PyStr (_towerDescriptionStr (self w0))).
Proof.
  assert (Hlh : ~ (2 # 10 == 0)%Q) by discriminate.
  exact (C8_openscad_parameters decimal_float w0 (2 # 10) 220 180 (-5)
           eq_refl eq_refl eq_refl Hlh).
Defined.

(** ** Preset lookup *)


Lemma loadPreset_complete path_join (w : world) (presetName : string) (lh : Q)
      (presetTable : gmap string pyval) (fn sv cv : pyval) :
  _presetTables (self w) !! presetName = Some presetTable ->
  presetTable !! "filename" = Some fn ->
  presetTable !! "start value" = Some sv ->
  presetTable !! "change value" = Some cv ->
  exists r w',
    _loadPreset path_join presetName lh w = (r, w')
    /\ _startTemperature (self w') = sv
    /\ _temperatureChange (self w') = cv
    /\ (trace w' = trace w
        \/ exists f, fn = PyStr f /\ r = Ok tt
             /\ trace w' = trace w ++
                  [LoadStlCallback (path_join (_stlPath (self w)) f)]).
Proof.
  intros Htab Hfn Hsv Hcv. unfold _loadPreset. run_py.
  step Htab. step Hfn. step Hsv. step Hcv.
  destruct (Qeq_bool lh 0); cbv beta iota; cbn [self trace].
  - do 2 eexists. split; [reflexivity|]. repeat split. left. reflexivity.
  - destruct fn; cbv beta iota; cbn [self trace];
      do 2 eexists; (split; [reflexivity|]); repeat split;
      first [ left; reflexivity | right; eexists; repeat split ].
Qed.

(** Every entry of the shipped table has its three fields. *)
Lemma shipped_presets_complete (presetName : string)
      (presetTable : gmap string pyval) :
  TempTowerController_presetTables !! presetName = Some presetTable ->
  forall f, is_Some (presetTable !! field_key f).
Proof.
  unfold TempTowerController_presetTables. intros H f.
  repeat (apply lookup_insert_Some in H;
          destruct H as [[_ <-]|[_ H]];
          [destruct f; cbn; unfold preset_entry; simplify_map_eq; eauto|]).
  rewrite lookup_empty in H. discriminate.
Qed.

Lemma loadPreset_outcome path_join (w : world) (presetName : string) (lh : Q) :
  preset_outcome path_join w presetName lh.
Proof.
  destruct (_presetTables (self w) !! presetName) as [t|] eqn:Htab.
  2:{ apply (outcome_failed _ _ _ _ UnknownPreset); [|exact Htab].
      eexists. apply loadPreset_unknown, Htab. }
  destruct (t !! "filename") as [fn|] eqn:Hfn.
  2:{ apply (outcome_failed _ _ _ _ (IncompletePresetEntry Filename));
        [|exists t; split; [exact Htab | exact Hfn]].
      eexists. apply (loadPreset_no_filename _ _ _ _ _ Htab Hfn). }
  destruct (t !! "start value") as [sv|] eqn:Hsv.
  2:{ apply (outcome_failed _ _ _ _ (IncompletePresetEntry StartValue));
        [|exists t; split; [exact Htab | exact Hsv]].
      eexists. apply (loadPreset_no_start_value _ _ _ _ _ _ Htab Hfn Hsv). }
  destruct (t !! "change value") as [cv|] eqn:Hcv.
  2:{ apply (outcome_failed _ _ _ _ (IncompletePresetEntry ChangeValue));
        [|exists t; split; [exact Htab | exact Hcv]].
      eexists.
      apply (loadPreset_no_change_value _ _ _ _ _ _ _ Htab Hfn Hsv Hcv). }
  exact (outcome_found _ _ _ _ t fn sv cv Htab Hfn Hsv Hcv).
Qed.



(** An entry with a filename and a start value but no change value: the
    lookup fails and [_startTemperature] has gone from 0 to 240. *)
Lemma C5_counterexample :
  (exists t, _presetTables (self w_incomplete) !! "draft" = Some t
             /\ t !! "change value" = None)
  /\ exists w', _loadPreset posix_join "draft" (2 # 10) w_incomplete
                = (Ok tt, w')
                /\ trace w' = [LogEntry "e" (msg_no_change_value "draft")]
                /\ _startTemperature (self w_incomplete) = PyInt 0
                /\ _startTemperature (self w') = PyInt 240.
Proof.
  split.
  - eexists. split; [vm_compute; reflexivity | reflexivity].
  - eexists. split; [vm_compute; reflexivity|]. repeat split.
Qed.

(** C5 (amended): whenever [_loadPreset] fails its lookup (unknown name, or
    a recognized entry without filename, start value or change value), the
    failure is logged, the load callback is not made and
    [_temperatureChange], [_baseLayers] and [_sectionLayers] are as before.
    The whole controller is as before unless the entry has a filename and a
    start value but no change value; then [_startTemperature] has already
    been overwritten with the entry's start value.  With the shipped table,
    whose entries are complete, only an unknown name fails, and the
    controller is unchanged. *)
Theorem C5_failed_preset_lookup path_join (w : world) (presetName : string)
        (lh : Q) :
  lookup_fails (_presetTables (self w)) presetName ->
  exists w' f,
    _loadPreset path_join presetName lh w = (Ok tt, w')
    /\ trace w' = trace w ++ [LogEntry "e" (failure_message f presetName)]
    /\ _temperatureChange (self w') = _temperatureChange (self w)
    /\ _baseLayers (self w') = _baseLayers (self w)
    /\ _sectionLayers (self w') = _sectionLayers (self w)
    /\ (f <> IncompletePresetEntry ChangeValue -> self w' = self w)
    /\ (f = IncompletePresetEntry ChangeValue ->
        exists t sv, _presetTables (self w) !! presetName = Some t
                     /\ t !! "start value" = Some sv
                     /\ self w' = set_startTemperature sv (self w))
    /\ (_presetTables (self w) = TempTowerController_presetTables ->
        f = UnknownPreset /\ self w' = self w).
Proof.
  intros Hfail.
  assert (Hshipped : forall t,
             _presetTables (self w) !! presetName = Some t ->
             forall fld, t !! field_key fld = None ->
             _presetTables (self w) <> TempTowerController_presetTables).
  { intros t Ht fld Hnone Heq. rewrite Heq in Ht.
    destruct (shipped_presets_complete _ _ Ht fld) as [v Hv]. congruence. }
  destruct (_presetTables (self w) !! presetName) as [t|] eqn:Htab.
  2:{ exists (mkWorld (self w)
                (trace w ++ [LogEntry "e" (msg_unknown_preset presetName)])),
             UnknownPreset.
      split; [apply loadPreset_unknown, Htab|].
      do 4 (split; [reflexivity|]).
      split; [intros _; reflexivity|].
      split; [intros E; discriminate E|].
      intros _; split; reflexivity. }
  destruct (t !! "filename") as [fn|] eqn:Hfn.
  2:{ exists (mkWorld (self w)
                (trace w ++ [LogEntry "e" (msg_no_filename presetName)])),
             (IncompletePresetEntry Filename).
      split; [apply (loadPreset_no_filename _ _ _ _ _ Htab Hfn)|].
      do 4 (split; [reflexivity|]).
      split; [intros _; reflexivity|].
      split; [intros E; discriminate E|].
      intros E; destruct (Hshipped t eq_refl Filename Hfn E). }
  destruct (t !! "start value") as [sv|] eqn:Hsv.
  2:{ exists (mkWorld (self w)
                (trace w ++ [LogEntry "e" (msg_no_start_value presetName)])),
             (IncompletePresetEntry StartValue).
      split; [apply (loadPreset_no_start_value _ _ _ _ _ _ Htab Hfn Hsv)|].
      do 4 (split; [reflexivity|]).
      split; [intros _; reflexivity|].
      split; [intros E; discriminate E|].
      intros E; destruct (Hshipped t eq_refl StartValue Hsv E). }
  destruct (t !! "change value") as [cv|] eqn:Hcv.
  2:{ exists (mkWorld (set_startTemperature sv (self w))
                (trace w ++ [LogEntry "e" (msg_no_change_value presetName)])),
             (IncompletePresetEntry ChangeValue).
      split; [apply (loadPreset_no_change_value _ _ _ _ _ _ _ Htab Hfn Hsv Hcv)|].
      split; [reflexivity|]. split; [reflexivity|]. split; [reflexivity|].
      split; [reflexivity|].
      split; [intros Hne; contradiction Hne; reflexivity|].
      split; [intros _; exists t, sv; repeat split; assumption|].
      intros E; destruct (Hshipped t eq_refl ChangeValue Hcv E). }
  exfalso. destruct Hfail as [Hnone|(t' & Ht' & fld & Hnone)];
    [congruence|].
  assert (t' = t) as -> by congruence.
  destruct fld; cbn in Hnone; congruence.
Qed.

(** The unknown preset [wood] on the shipped table. *)
Lemma C5_witness :
  exists w' f,
    _loadPreset posix_join "wood" (2 # 10) w0 = (Ok tt, w')
    /\ trace w' = trace w0 ++ [LogEntry "e" (failure_message f "wood")]
    /\ _temperatureChange (self w') = _temperatureChange (self w0)
    /\ _baseLayers (self w') = _baseLayers (self w0)
    /\ _sectionLayers (self w') = _sectionLayers (self w0)
    /\ (f <> IncompletePresetEntry ChangeValue -> self w' = self w0)
    /\ (f = IncompletePresetEntry ChangeValue ->
        exists t sv, _presetTables (self w0) !! "wood" = Some t
                     /\ t !! "start value" = Some sv
                     /\ self w' = set_startTemperature sv (self w0))
    /\ (_presetTables (self w0) = TempTowerController_presetTables ->
        f = UnknownPreset /\ self w' = self w0).
Proof.
  assert (Hfail : lookup_fails (_presetTables (self w0)) "wood").
  { left. vm_compute. reflexivity. }
  exact (C5_failed_preset_lookup posix_join w0 "wood" (2 # 10) Hfail).
Defined.


(** ** Post-processing *)

Lemma postProcess_run py_float execute (w : world) (gcode : list string)
      (st ch : Q) (n : Z) :
  py_float (_startTemperatureStr (self w)) = Some st ->
  py_float (_temperatureChangeStr (self w)) = Some ch ->
  _sectionLayers (self w) = Some n ->
  postProcess py_float execute gcode w
  = (execute gcode (_startTemperature (self w)) (_temperatureChange (self w))
       n (_baseLayers (self w)), w).
Proof.
  intros Hst Hch Hn. unfold postProcess. run_py.
  step Hst. step Hch. step Hn. destruct (execute _ _ _ _ _); reflexivity.
Qed.

Lemma postProcess_ValueError py_float execute (w : world) (gcode : list string) :
  py_float (_startTemperatureStr (self w)) = None
  \/ py_float (_temperatureChangeStr (self w)) = None ->
  postProcess py_float execute gcode w = (Raise ValueError, w).
Proof.
  intros H. unfold postProcess. run_py.
  destruct (py_float (_startTemperatureStr (self w))) eqn:Hst;
    cbv beta iota; cbn [self trace]; [|reflexivity].
  destruct (py_float (_temperatureChangeStr (self w))) eqn:Hch;
    cbv beta iota; cbn [self trace]; [|reflexivity].
  destruct H; discriminate.
Qed.

Lemma postProcess_AttributeError py_float execute (w : world)
      (gcode : list string) (st ch : Q) :
  py_float (_startTemperatureStr (self w)) = Some st ->
  py_float (_temperatureChangeStr (self w)) = Some ch ->
  _sectionLayers (self w) = None ->
  postProcess py_float execute gcode w = (Raise AttributeError, w).
Proof.
  intros Hst Hch Hn. unfold postProcess. run_py.
  step Hst. step Hch. step Hn. reflexivity.
Qed.

(** [_loadPreset] leaves the dialog strings alone. *)
Lemma loadPreset_dialog_strings path_join (w : world) (presetName : string)
      (lh : Q) :
  let w' := snd (_loadPreset path_join presetName lh w) in
  _startTemperatureStr (self w') = _startTemperatureStr (self w)
  /\ _temperatureChangeStr (self w') = _temperatureChangeStr (self w).
Proof.
  unfold _loadPreset. run_py.
  destruct (_presetTables (self w) !! presetName) as [t|];
    cbv beta iota; cbn [self trace snd]; [|split; reflexivity].
  destruct (t !! "filename") as [fn|];
    cbv beta iota; cbn [self trace snd]; [|split; reflexivity].
  destruct (t !! "start value") as [sv|];
    cbv beta iota; cbn [self trace snd]; [|split; reflexivity].
  destruct (t !! "change value") as [cv|];
    cbv beta iota; cbn [self trace snd]; [|split; reflexivity].
  destruct (Qeq_bool lh 0);
    cbv beta iota; cbn [self trace snd]; [split; reflexivity|].
  destruct fn; split; reflexivity.
Qed.

(** [_sectionLayers] after [_loadPreset]: untouched, or set by the layer
    computation. *)
Lemma loadPreset_sectionLayers path_join (w : world) (presetName : string)
      (lh : Q) :
  let w' := snd (_loadPreset path_join presetName lh w) in
  _sectionLayers (self w') = _sectionLayers (self w)
  \/ (Qeq_bool lh 0 = false
      /\ _sectionLayers (self w') = Some (math_ceil (_nominalSectionHeight / lh))
      /\ _baseLayers (self w') = math_ceil (_nominalBaseHeight / lh)).
Proof.
  unfold _loadPreset. run_py.
  destruct (_presetTables (self w) !! presetName) as [t|];
    cbv beta iota; cbn [self trace snd]; [|left; reflexivity].
  destruct (t !! "filename") as [fn|];
    cbv beta iota; cbn [self trace snd]; [|left; reflexivity].
  destruct (t !! "start value") as [sv|];
    cbv beta iota; cbn [self trace snd]; [|left; reflexivity].
  destruct (t !! "change value") as [cv|];
    cbv beta iota; cbn [self trace snd]; [|left; reflexivity].
  destruct (Qeq_bool lh 0) eqn:Hz;
    cbv beta iota; cbn [self trace snd]; [left; reflexivity|].
  right. destruct fn; repeat split; exact Hz.
Qed.

Lemma dialogAccepted_sectionLayers py_float (w : world) (lh : Q) :
  let w' := snd (dialogAccepted py_float lh w) in
  _sectionLayers (self w') = _sectionLayers (self w)
  \/ (Qeq_bool lh 0 = false
      /\ _sectionLayers (self w') = Some (math_ceil (_nominalSectionHeight / lh))
      /\ _baseLayers (self w') = math_ceil (_nominalBaseHeight / lh)).
Proof.
  cbv zeta.
  destruct (py_float (_startTemperatureStr (self w))) as [st|] eqn:Hst.
  2:{ rewrite dialogAccepted_ValueError by tauto. left. reflexivity. }
  destruct (py_float (_endTemperatureStr (self w))) as [en|] eqn:Hen.
  2:{ rewrite dialogAccepted_ValueError by tauto. left. reflexivity. }
  destruct (py_float (_temperatureChangeStr (self w))) as [ch|] eqn:Hch.
  2:{ rewrite dialogAccepted_ValueError by tauto. left. reflexivity. }
  destruct (Qeq_bool lh 0) eqn:Hz.
  - rewrite (dialogAccepted_zero _ _ _ _ _ _ Hst Hen Hch Hz). left. reflexivity.
  - rewrite (dialogAccepted_run _ _ _ _ _ _ Hst Hen Hch Hz). right.
    repeat split.
Qed.



(** C9: [postProcess] parses the dialog strings [startTemperatureStr] and
    [temperatureChangeStr] before it delegates, although the result does not
    use the parsed numbers: for every g-code input it raises the parse error
    ([ValueError]) whenever either string is not numeric, also after a
    preset has been loaded, where these strings have no part in the
    schedule. *)
Theorem C9_postProcess_parses_dialog_strings py_float path_join execute
        (w : world) (gcode : list string) :
  py_float (_startTemperatureStr (self w)) = None
  \/ py_float (_temperatureChangeStr (self w)) = None ->
  postProcess py_float execute gcode w = (Raise ValueError, w)
  /\ (forall presetName lh,
        let w' := snd (_loadPreset path_join presetName lh w) in
        postProcess py_float execute gcode w' = (Raise ValueError, w'))
  /\ (forall w2 st ch n,
        py_float (_startTemperatureStr (self w2)) = Some st ->
        py_float (_temperatureChangeStr (self w2)) = Some ch ->
        _sectionLayers (self w2) = Some n ->
        postProcess py_float execute gcode w2
        = (execute gcode (_startTemperature (self w2))
             (_temperatureChange (self w2)) n (_baseLayers (self w2)), w2)).
Proof.
  intros Hbad. split; [|split].
  - apply postProcess_ValueError, Hbad.
  - intros presetName lh w'. apply postProcess_ValueError.
    destruct (loadPreset_dialog_strings path_join w presetName lh) as [Es Ec].
    subst w'. rewrite Es, Ec. exact Hbad.
  - intros w2 st ch n Hst Hch Hn.
    exact (postProcess_run _ _ _ _ _ _ _ Hst Hch Hn).
Qed.

(** The start temperature string [hot], before and after loading [pla]. *)
Lemma C9_witness :
  postProcess decimal_float rewriter_execute sample_gcode w_garbled
  = (Raise ValueError, w_garbled)
  /\ (let w' := snd (_loadPreset posix_join "pla" (2 # 10) w_garbled) in
      _sectionLayers (self w') = Some 40
      /\ postProcess decimal_float rewriter_execute sample_gcode w'
         = (Raise ValueError, w')).
Proof.
  assert (Hbad : decimal_float (_startTemperatureStr (self w_garbled)) = None
                 \/ decimal_float (_temperatureChangeStr (self w_garbled)) = None).
  { left. reflexivity. }
  destruct (C9_postProcess_parses_dialog_strings decimal_float posix_join
              rewriter_execute w_garbled sample_gcode Hbad) as (H1 & H2 & _).
  split; [exact H1|]. split; [reflexivity|]. exact (H2 "pla" (2 # 10)).
Defined.

(** C10: [__init__] sets [_startTemperature], [_temperatureChange] and
    [_baseLayers] but not [_sectionLayers]; the attribute comes to exist only
    when [dialogAccepted] or [_loadPreset] (through [generate]) gets through
    its layer computation; and as long as it does not exist [postProcess]
    fails, with the missing-attribute error when the two dialog strings are
    numeric, and never returns a stream. *)
Theorem C10_sectionLayers_missing_until_generated py_float path_join execute :
  (forall guiPath stlPath,
     let c := __init__ guiPath stlPath in
     _startTemperature c = PyInt 0 /\ _temperatureChange c = PyInt 0
     /\ _baseLayers c = 0 /\ _sectionLayers c = None)
  /\ (forall w c n,
        _sectionLayers (self w) = None ->
        _sectionLayers (self (snd (do_call py_float path_join c w))) = Some n ->
        exists lh,
          ~ (lh == 0)%Q
          /\ n = math_ceil (_nominalSectionHeight / lh)
          /\ (c = DialogAccepted lh
              \/ exists p, p <> EmptyString /\ c = Generate p lh))
  /\ (forall w gcode,
        _sectionLayers (self w) = None ->
        exists e,
          postProcess py_float execute gcode w = (Raise e, w)
          /\ (e = AttributeError \/ e = ValueError)
          /\ (is_Some (py_float (_startTemperatureStr (self w))) ->
              is_Some (py_float (_temperatureChangeStr (self w))) ->
              e = AttributeError)).
Proof.
  split; [|split].
  - intros guiPath stlPath c. repeat split.
  - intros w c n Hnone Hsome.
    assert (Hnz : forall lh, Qeq_bool lh 0 = false -> ~ (lh == 0)%Q).
    { intros lh E H. apply Qeq_eq_bool in H. congruence. }
    destruct c as [v|v|v|v|v|p lh|lh]; cbn [do_call] in Hsome;
      try (cbn in Hsome; congruence).
    + unfold generate in Hsome.
      destruct (String.eqb p EmptyString) eqn:Ep; cbn [negb] in Hsome.
      * exfalso. revert Hsome. unfold _settingsDialog. run_py.
        destruct (_cachedSettingsDialog (self w)); cbn; congruence.
      * destruct (loadPreset_sectionLayers path_join w p lh)
          as [Hsame|(Hz & Hs & _)].
        -- congruence.
        -- exists lh. split; [exact (Hnz _ Hz)|]. split; [congruence|].
           right. exists p. split; [|reflexivity].
           intros ->. discriminate Ep.
    + destruct (dialogAccepted_sectionLayers py_float w lh)
        as [Hsame|(Hz & Hs & _)].
      * congruence.
      * exists lh. split; [exact (Hnz _ Hz)|]. split; [congruence|].
        left. reflexivity.
  - intros w gcode Hnone.
    destruct (py_float (_startTemperatureStr (self w))) as [st|] eqn:Hst.
    2:{ exists ValueError. split; [apply postProcess_ValueError; tauto|].
        split; [tauto|]. intros [x Hx]. discriminate Hx. }
    destruct (py_float (_temperatureChangeStr (self w))) as [ch|] eqn:Hch.
    2:{ exists ValueError. split; [apply postProcess_ValueError; tauto|].
        split; [tauto|]. intros _ [x Hx]. discriminate Hx. }
    exists AttributeError.
    split; [exact (postProcess_AttributeError _ _ _ _ _ _ Hst Hch Hnone)|].
    split; [tauto | reflexivity].
Qed.

(** [postProcess] on a freshly constructed controller. *)
Lemma C10_witness :
  exists e,
    postProcess decimal_float rewriter_execute sample_gcode w0 = (Raise e, w0)
    /\ (e = AttributeError \/ e = ValueError)
    /\ (is_Some (decimal_float (_startTemperatureStr (self w0))) ->
        is_Some (decimal_float (_temperatureChangeStr (self w0))) ->
        e = AttributeError).
Proof.
  destruct (C10_sectionLayers_missing_until_generated decimal_float posix_join
              rewriter_execute) as (_ & _ & H).
  exact (H w0 sample_gcode eq_refl).
Defined.

(** ** The injections of the Rewriter *)










(** ** Further properties of the controller *)

(** *** The dialog properties *)

(** X1: a setter call succeeds, makes its getter return the value given,
    leaves every other dialog string, the stored schedule, the configuration
    and the cached dialog as they were, and emits its change signal exactly
    once, also when the value is the one already held. *)
Theorem setter_roundtrip py_float path_join (c : call) (w : world)
        (signal value : string) :
  setter_signal c = Some (signal, value) ->
  exists w',
    do_call py_float path_join c w = (Ok tt, w')
    /\ setter_getter c (self w') = Some value
    /\ trace w' = trace w ++ [Emitted signal]
    /\ stored_schedule (self w') = stored_schedule (self w)
    /\ configuration (self w') = configuration (self w)
    /\ _cachedSettingsDialog (self w') = _cachedSettingsDialog (self w)
    /\ (forall c2, is_setter c2 = true -> same_property c c2 = false ->
          setter_getter c2 (self w') = setter_getter c2 (self w)).
Proof.
  intros Hsig.
  destruct c as [v|v|v|v|v|p lh|lh]; cbn in Hsig; try discriminate Hsig;
    injection Hsig as <- <-;
    (eexists; split; [reflexivity|]);
    (split; [reflexivity|]); (split; [reflexivity|]);
    (split; [reflexivity|]); (split; [reflexivity|]);
    (split; [reflexivity|]);
    intros c2 Hset Hdiff;
    destruct c2; cbn in Hset, Hdiff; try discriminate; reflexivity.
Qed.

(** The start temperature is set to the value it already has. *)
Lemma setter_roundtrip_witness :
  exists w',
    do_call decimal_float posix_join (SetStartTemperatureStr "220") w0
    = (Ok tt, w')
    /\ setter_getter (SetStartTemperatureStr "220") (self w') = Some "220"
    /\ trace w' = trace w0 ++ [Emitted "startTemperatureStrChanged"]
    /\ stored_schedule (self w') = stored_schedule (self w0)
    /\ configuration (self w') = configuration (self w0)
    /\ _cachedSettingsDialog (self w') = _cachedSettingsDialog (self w0)
    /\ (forall c2, is_setter c2 = true ->
          same_property (SetStartTemperatureStr "220") c2 = false ->
          setter_getter c2 (self w') = setter_getter c2 (self w0)).
Proof.
  exact (setter_roundtrip decimal_float posix_join
           (SetStartTemperatureStr "220") w0
           "startTemperatureStrChanged" "220" eq_refl).
Defined.

(** X2: two setter calls on different dialog properties commute on the
    controller; of two calls on the same property the later one wins. *)
Theorem setters_compose py_float path_join (c1 c2 : call) (w : world) :
  is_setter c1 = true ->
  is_setter c2 = true ->
  (same_property c1 c2 = false ->
   self (run_calls py_float path_join [c1; c2] w)
   = self (run_calls py_float path_join [c2; c1] w))
  /\ (same_property c1 c2 = true ->
      self (run_calls py_float path_join [c1; c2] w)
      = self (run_calls py_float path_join [c2] w)).
Proof.
  intros H1 H2.
  destruct c1, c2; cbn in H1, H2; try discriminate;
    split; intros H; cbn in H; try discriminate; reflexivity.
Qed.

(** Start temperature then change, and the other way round. *)
Lemma setters_compose_witness :
  self (run_calls decimal_float posix_join
          [SetStartTemperatureStr "240"; SetTemperatureChangeStr "10"] w0)
  = self (run_calls decimal_float posix_join
            [SetTemperatureChangeStr "10"; SetStartTemperatureStr "240"] w0).
Proof.
  destruct (setters_compose decimal_float posix_join
              (SetStartTemperatureStr "240") (SetTemperatureChangeStr "10")
              w0 eq_refl eq_refl) as [H _].
  exact (H eq_refl).
Defined.

(** *** What the generate paths leave alone *)

Lemma loadPreset_frame path_join (w : world) (presetName : string) (lh : Q) :
  let w' := snd (_loadPreset path_join presetName lh w) in
  dialog_strings (self w') = dialog_strings (self w)
  /\ configuration (self w') = configuration (self w)
  /\ _cachedSettingsDialog (self w') = _cachedSettingsDialog (self w).
Proof.
  unfold _loadPreset. run_py.
  destruct (_presetTables (self w) !! presetName) as [t|];
    cbv beta iota; cbn [self trace snd]; [|repeat split].
  destruct (t !! "filename") as [fn|];
    cbv beta iota; cbn [self trace snd]; [|repeat split].
  destruct (t !! "start value") as [sv|];
    cbv beta iota; cbn [self trace snd]; [|repeat split].
  destruct (t !! "change value") as [cv|];
    cbv beta iota; cbn [self trace snd]; [|repeat split].
  destruct (Qeq_bool lh 0);
    cbv beta iota; cbn [self trace snd]; [repeat split|].
  destruct fn; repeat split.
Qed.

(** The custom path, case by case. *)
Lemma dialogAccepted_cases py_float (w : world) (lh : Q) :
  dialogAccepted py_float lh w = (Raise ValueError, w)
  /\ (py_float (_startTemperatureStr (self w)) = None
      \/ py_float (_endTemperatureStr (self w)) = None
      \/ py_float (_temperatureChangeStr (self w)) = None)
  \/ exists st en ch,
       py_float (_startTemperatureStr (self w)) = Some st
       /\ py_float (_endTemperatureStr (self w)) = Some en
       /\ py_float (_temperatureChangeStr (self w)) = Some ch
       /\ ((Qeq_bool lh 0 = true
            /\ dialogAccepted py_float lh w = (Raise ZeroDivisionError, w))
           \/ (Qeq_bool lh 0 = false
               /\ exists p,
                   dialogAccepted py_float lh w
                   = (Ok tt,
                      mkWorld
                        (set_temperatureChange
                           (PyFloat (if Qle_bool st en then Qabs ch
                                     else - Qabs ch)%Q)
                           (set_startTemperature (PyFloat st)
                              (set_sectionLayers
                                 (math_ceil (_nominalSectionHeight / lh))
                                 (set_baseLayers
                                    (math_ceil (_nominalBaseHeight / lh))
                                    (self w)))))
                        (trace w ++
                         [GenerateAndLoadStlCallback _openScadFilename p])))).
Proof.
  destruct (py_float (_startTemperatureStr (self w))) as [st|] eqn:Hst.
  2:{ left. split; [apply dialogAccepted_ValueError|]; tauto. }
  destruct (py_float (_endTemperatureStr (self w))) as [en|] eqn:Hen.
  2:{ left. split; [apply dialogAccepted_ValueError|]; tauto. }
  destruct (py_float (_temperatureChangeStr (self w))) as [ch|] eqn:Hch.
  2:{ left. split; [apply dialogAccepted_ValueError|]; tauto. }
  right. exists st, en, ch. repeat (split; [reflexivity|]).
  destruct (Qeq_bool lh 0) eqn:Hz.
  - left. split; [reflexivity|].
    exact (dialogAccepted_zero _ _ _ _ _ _ Hst Hen Hch Hz).
  - right. split; [reflexivity|]. eexists.
    exact (dialogAccepted_run _ _ _ _ _ _ Hst Hen Hch Hz).
Qed.

Lemma dialogAccepted_frame py_float (w : world) (lh : Q) :
  let w' := snd (dialogAccepted py_float lh w) in
  dialog_strings (self w') = dialog_strings (self w)
  /\ configuration (self w') = configuration (self w)
  /\ _cachedSettingsDialog (self w') = _cachedSettingsDialog (self w).
Proof.
  cbv zeta.
  destruct (dialogAccepted_cases py_float w lh)
    as [[E _]|(st & en & ch & _ & _ & _ & [[_ E]|[_ [p E]]])];
    rewrite E; repeat split.
Qed.

Lemma settingsDialog_cases path_join (w : world) :
  (exists d, _cachedSettingsDialog (self w) = Some d
             /\ _settingsDialog path_join w = (Ok d, w))
  \/ (_cachedSettingsDialog (self w) = None
      /\ let d := path_join (_guiPath (self w)) "TempTowerDialog.qml" in
         _settingsDialog path_join w
         = (Ok d, mkWorld (set_cachedSettingsDialog d (self w))
                    (trace w ++ [CreateQmlComponent d]))).
Proof.
  unfold _settingsDialog. run_py.
  destruct (_cachedSettingsDialog (self w)) as [d|] eqn:E.
  - left. exists d. split; reflexivity.
  - right. split; reflexivity.
Qed.

(** X3: every call leaves the configuration ([_guiPath], [_stlPath] and the
    preset tables) as it was; a setter call leaves the stored schedule as it
    was; [generate] and [dialogAccepted] leave the five dialog strings as
    they were. *)
Theorem calls_frame py_float path_join (c : call) (w : world) :
  let w' := snd (do_call py_float path_join c w) in
  configuration (self w') = configuration (self w)
  /\ (is_setter c = true ->
      stored_schedule (self w') = stored_schedule (self w))
  /\ (is_setter c = false ->
      dialog_strings (self w') = dialog_strings (self w)).
Proof.
  cbv zeta.
  destruct c as [v|v|v|v|v|p lh|lh]; cbn [do_call is_setter];
    try (repeat split; intros H; discriminate H).
  - unfold generate.
    destruct (negb (String.eqb p EmptyString)).
    + destruct (loadPreset_frame path_join w p lh) as (Hs & Hc & _).
      split; [exact Hc|]. split; [intros H; discriminate H|].
      intros _. exact Hs.
    + unfold bind.
      destruct (settingsDialog_cases path_join w)
        as [(d & _ & E)|[_ E]]; rewrite E; cbv zeta;
        (split; [reflexivity|]);
        (split; [intros H; discriminate H | intros _; reflexivity]).
  - destruct (dialogAccepted_frame py_float w lh) as (Hs & Hc & _).
    split; [exact Hc|]. split; [intros H; discriminate H|].
    intros _. exact Hs.
Qed.

(** *** Failure of the generate paths *)





(** *** The settings dialog *)

Lemma generate_custom path_join (w : world) (lh : Q) :
  (exists d, _cachedSettingsDialog (self w) = Some d
             /\ generate path_join EmptyString lh w
                = (Ok tt, mkWorld (self w) (trace w ++ [DialogShown])))
  \/ (_cachedSettingsDialog (self w) = None
      /\ let d := path_join (_guiPath (self w)) "TempTowerDialog.qml" in
         generate path_join EmptyString lh w
         = (Ok tt, mkWorld (set_cachedSettingsDialog d (self w))
                     ((trace w ++ [CreateQmlComponent d]) ++ [DialogShown]))).
Proof.
  unfold generate. cbn [String.eqb negb]. unfold bind.
  destruct (settingsDialog_cases path_join w) as [(d & Hd & E)|[Hd E]];
    rewrite E; [left; exists d | right]; split; first [exact Hd | reflexivity].
Qed.

(** X6: [generate] without a preset shows the settings dialog and touches
    neither the stored schedule nor the dialog strings.  The dialog component
    is created on the first such call only, from [TempTowerDialog.qml] in the
    GUI directory; a second call adds one more [show] and nothing else. *)
Theorem generate_dialog_lazy path_join (w : world) (lh1 lh2 : Q) :
  let r1 := generate path_join EmptyString lh1 w in
  let r2 := generate path_join EmptyString lh2 (snd r1) in
  fst r1 = Ok tt /\ fst r2 = Ok tt
  /\ stored_schedule (self (snd r1)) = stored_schedule (self w)
  /\ dialog_strings (self (snd r1)) = dialog_strings (self w)
  /\ (exists d, _cachedSettingsDialog (self (snd r1)) = Some d
        /\ match _cachedSettingsDialog (self w) with
           | Some d0 => d = d0 /\ trace (snd r1) = trace w ++ [DialogShown]
           | None =>
               d = path_join (_guiPath (self w)) "TempTowerDialog.qml"
               /\ trace (snd r1)
                  = trace w ++ [CreateQmlComponent d; DialogShown]
           end)
  /\ self (snd r2) = self (snd r1)
  /\ trace (snd r2) = trace (snd r1) ++ [DialogShown].
Proof.
  cbv zeta.
  destruct (generate_custom path_join w lh1) as [(d & Hd & E)|[Hd E]];
    rewrite E; cbn [fst snd self trace].
  - destruct (generate_custom path_join
                (mkWorld (self w) (trace w ++ [DialogShown])) lh2)
      as [(d' & _ & E2)|[Hd' _]]; cbn [self trace] in *; [|congruence].
    rewrite E2. cbn [fst snd self trace].
    repeat (split; [reflexivity|]).
    split; [|split; reflexivity].
    exists d. split; [exact Hd|]. rewrite Hd. split; reflexivity.
  - cbv zeta in E |- *.
    set (d := path_join (_guiPath (self w)) "TempTowerDialog.qml") in *.
    destruct (generate_custom path_join
                (mkWorld (set_cachedSettingsDialog d (self w))
                   ((trace w ++ [CreateQmlComponent d]) ++ [DialogShown])) lh2)
      as [(d' & _ & E2)|[Hd' _]]; cbn [self trace] in *;
      [|cbn in Hd'; discriminate Hd'].
    rewrite E2. cbn [fst snd self trace].
    repeat (split; [reflexivity|]).
    split; [|split; reflexivity].
    exists d. split; [reflexivity|]. rewrite Hd.
    split; [reflexivity|]. rewrite <- app_assoc. reflexivity.
Qed.

Lemma creations_app (l1 l2 : list event) :
  creations (l1 ++ l2) = (creations l1 + creations l2)%nat.
Proof. unfold creations. rewrite List.filter_app, length_app. reflexivity. Qed.

(** What one call does to the cached dialog and to the creations. *)
Lemma call_creations py_float path_join (c : call) (w : world) :
  let w' := snd (do_call py_float path_join c w) in
  (_cachedSettingsDialog (self w') = _cachedSettingsDialog (self w)
   /\ creations (trace w') = creations (trace w))
  \/ (_cachedSettingsDialog (self w) = None
      /\ is_Some (_cachedSettingsDialog (self w'))
      /\ creations (trace w') = S (creations (trace w))).
Proof.
  cbv zeta.
  destruct c as [v|v|v|v|v|p lh|lh]; cbn [do_call];
    try (left; split; [reflexivity|];
         unfold setStartTemperatureStr, setEndTemperatureStr,
           setTemperatureChangeStr, setMaterialLabelStr,
           setTowerDescriptionStr, bind, setattr, emit;
         cbn [snd trace self]; rewrite creations_app; cbn; lia).
  - unfold generate. destruct (String.eqb p EmptyString) eqn:Ep; cbn [negb].
    + apply String.eqb_eq in Ep. subst p.
      destruct (generate_custom path_join w lh) as [(d & Hd & E)|[Hd E]].
      * unfold generate in E. cbn [String.eqb negb] in E. rewrite E.
        left. split; [reflexivity|].
        cbn [snd trace]. rewrite creations_app. cbn. lia.
      * unfold generate in E. cbn [String.eqb negb] in E. rewrite E.
        right. split; [exact Hd|]. split; [eexists; reflexivity|].
        cbn [snd trace]. rewrite !creations_app. cbn. lia.
    + left. destruct (loadPreset_frame path_join w p lh) as (_ & _ & Hc).
      split; [exact Hc|].
      destruct (loadPreset_outcome path_join w p lh)
        as [f [c E] _ | t fn sv cv Htab Hfn Hsv Hcv].
      * rewrite E. cbn [snd trace]. rewrite creations_app. cbn. lia.
      * destruct (loadPreset_complete path_join w p lh t fn sv cv
                    Htab Hfn Hsv Hcv)
          as (r & w1 & E & _ & _ & [Ht|(f & _ & _ & Ht)]);
          rewrite E; cbn [snd]; rewrite Ht; [reflexivity|].
        rewrite creations_app. cbn. lia.
  - left. destruct (dialogAccepted_frame py_float w lh) as (_ & _ & Hc).
    split; [exact Hc|].
    destruct (dialogAccepted_cases py_float w lh)
      as [[E _]|(st & en & ch & _ & _ & _ & [[_ E]|[_ [p E]]])];
      rewrite E; cbn [snd trace]; [reflexivity | reflexivity |].
    rewrite creations_app. cbn. lia.
Qed.

(** X7: over any sequence of calls the dialog component is created at most
    once, and not at all when it is already cached. *)
Theorem dialog_created_at_most_once py_float path_join (cs : list call)
        (w : world) :
  let w' := run_calls py_float path_join cs w in
  (creations (trace w) <= creations (trace w') <= S (creations (trace w)))%nat
  /\ (is_Some (_cachedSettingsDialog (self w)) ->
      creations (trace w') = creations (trace w)
      /\ _cachedSettingsDialog (self w') = _cachedSettingsDialog (self w)).
Proof.
  cbv zeta. revert w. induction cs as [|c cs IH]; intros w.
  - cbn [run_calls]. split; [lia|]. intros _. split; reflexivity.
  - cbn [run_calls].
    destruct (IH (snd (do_call py_float path_join c w))) as [IHr IHc].
    destruct (call_creations py_float path_join c w)
      as [[Hc Hn]|(Hnone & Hsome & Hn)].
    + rewrite Hc, Hn in *. split; [exact IHr | exact IHc].
    + destruct (IHc Hsome) as [En Ec]. rewrite En, Hn.
      split; [lia|]. intros [d Hd]. congruence.
Qed.

(** *** Invariants of the stored schedule *)




Lemma shipped_table_numeric : table_numeric TempTowerController_presetTables.
Proof.
  unfold table_numeric, TempTowerController_presetTables.
  intros presetName t v Ht Hv.
  repeat (apply lookup_insert_Some in Ht;
          destruct Ht as [[_ <-]|[_ Ht]];
          [unfold preset_entry in Hv; destruct Hv as [Hv|Hv];
           simplify_map_eq; reflexivity|]).
  rewrite lookup_empty in Ht. discriminate.
Qed.

Lemma call_numeric py_float path_join (c : call) (w : world) :
  schedule_numeric (self w) ->
  schedule_numeric (self (snd (do_call py_float path_join c w))).
Proof.
  intros (Ht & Hs & Hc). unfold schedule_numeric.
  destruct c as [v|v|v|v|v|p lh|lh]; cbn [do_call];
    try (repeat split; assumption).
  - unfold generate. destruct (negb (String.eqb p EmptyString)).
    + unfold _loadPreset. run_py.
      destruct (_presetTables (self w) !! p) as [t|] eqn:Htab;
        cbv beta iota; cbn [self trace snd]; [|repeat split; assumption].
      destruct (t !! "filename") as [fn|];
        cbv beta iota; cbn [self trace snd]; [|repeat split; assumption].
      destruct (t !! "start value") as [sv|] eqn:Hsv;
        cbv beta iota; cbn [self trace snd]; [|repeat split; assumption].
      assert (Hnsv : is_number sv = true) by (apply (Ht p t sv Htab); tauto).
      destruct (t !! "change value") as [cv|] eqn:Hcv;
        cbv beta iota; cbn [self trace snd]; [|repeat split; assumption].
      assert (Hncv : is_number cv = true) by (apply (Ht p t cv Htab); tauto).
      destruct (Qeq_bool lh 0);
        cbv beta iota; cbn [self trace snd]; [repeat split; assumption|].
      destruct fn; repeat split; assumption.
    + unfold bind.
      destruct (settingsDialog_cases path_join w)
        as [(d & _ & E)|[_ E]]; rewrite E; repeat split; assumption.
  - destruct (dialogAccepted_cases py_float w lh)
      as [[E _]|(st & en & ch & _ & _ & _ & [[_ E]|[_ [p E]]])];
      rewrite E; repeat split; assumption.
Qed.

(** X9: the Rewriter is never handed a string for a temperature.  If the
    stored start temperature and change are numbers and every start and
    change value of the preset tables is a number, this is still so after
    any sequence of calls; a freshly constructed controller with the shipped
    tables is in that state. *)
Theorem schedule_stays_numeric py_float path_join (cs : list call)
        (w : world) :
  schedule_numeric (self w) ->
  schedule_numeric (self (run_calls py_float path_join cs w))
  /\ forall guiPath stlPath, schedule_numeric (__init__ guiPath stlPath).
Proof.
  intros Hw. split.
  - revert w Hw. induction cs as [|c cs IH]; intros w Hw; [exact Hw|].
    cbn [run_calls]. apply IH, call_numeric, Hw.
  - intros guiPath stlPath. split; [exact shipped_table_numeric|].
    split; reflexivity.
Qed.

(** A preset and then a custom tower, from a fresh controller. *)
Lemma schedule_stays_numeric_witness :
  schedule_numeric
    (self (run_calls decimal_float posix_join
             [Generate "petg" (2 # 10); DialogAccepted (2 # 10)] w0))
  /\ forall guiPath stlPath, schedule_numeric (__init__ guiPath stlPath).
Proof.
  apply (schedule_stays_numeric decimal_float posix_join
           [Generate "petg" (2 # 10); DialogAccepted (2 # 10)] w0).
  split; [exact shipped_table_numeric|]. split; reflexivity.
Defined.

(** *** The shipped presets *)




(** *** The custom path *)

(** X11: the schedule a successful [dialogAccepted] stores is a function of
    the three temperature strings and the layer height alone: two
    controllers that agree on those strings end with the same outcome and,
    on success, the same stored schedule, whatever was stored before.
    Hence calling it again with the same layer height changes nothing in
    the controller. *)
Theorem dialogAccepted_fresh py_float (w1 w2 : world) (lh : Q) :
  _startTemperatureStr (self w1) = _startTemperatureStr (self w2) ->
  _endTemperatureStr (self w1) = _endTemperatureStr (self w2) ->
  _temperatureChangeStr (self w1) = _temperatureChangeStr (self w2) ->
  fst (dialogAccepted py_float lh w1) = fst (dialogAccepted py_float lh w2)
  /\ (fst (dialogAccepted py_float lh w1) = Ok tt ->
      stored_schedule (self (snd (dialogAccepted py_float lh w1)))
      = stored_schedule (self (snd (dialogAccepted py_float lh w2))))
  /\ self (snd (dialogAccepted py_float lh
                  (snd (dialogAccepted py_float lh w1))))
     = self (snd (dialogAccepted py_float lh w1)).
Proof.
  intros Es Ee Ec.
  destruct (dialogAccepted_cases py_float w1 lh)
    as [[E Hbad]|(st & en & ch & Hst & Hen & Hch & [[Hz E]|[Hz [p E]]])].
  - rewrite E. cbn [fst snd]. rewrite E. cbn [snd].
    rewrite Es, Ee, Ec in Hbad.
    rewrite (dialogAccepted_ValueError py_float w2 lh Hbad).
    split; [reflexivity|]. split; [intros H; discriminate H | reflexivity].
  - rewrite E. cbn [fst snd]. rewrite E. cbn [snd].
    rewrite Es in Hst. rewrite Ee in Hen. rewrite Ec in Hch.
    rewrite (dialogAccepted_zero _ _ _ _ _ _ Hst Hen Hch Hz).
    split; [reflexivity|]. split; [intros H; discriminate H | reflexivity].
  - rewrite E. cbn [fst snd].
    pose proof Hst as Hst2. pose proof Hen as Hen2. pose proof Hch as Hch2.
    rewrite Es in Hst2. rewrite Ee in Hen2. rewrite Ec in Hch2.
    rewrite (dialogAccepted_run _ _ _ _ _ _ Hst2 Hen2 Hch2 Hz).
    split; [reflexivity|]. split; [intros _; reflexivity|].
    erewrite (dialogAccepted_run py_float _ lh st en ch);
      [reflexivity | exact Hst | exact Hen | exact Hch | exact Hz].
Qed.

(** A fresh controller and one that has loaded [pla]. *)
Lemma dialogAccepted_fresh_witness :
  fst (dialogAccepted decimal_float (2 # 10) w0)
  = fst (dialogAccepted decimal_float (2 # 10) w_pla)
  /\ (fst (dialogAccepted decimal_float (2 # 10) w0) = Ok tt ->
      stored_schedule (self (snd (dialogAccepted decimal_float (2 # 10) w0)))
      = stored_schedule
          (self (snd (dialogAccepted decimal_float (2 # 10) w_pla))))
  /\ self (snd (dialogAccepted decimal_float (2 # 10)
                  (snd (dialogAccepted decimal_float (2 # 10) w0))))
     = self (snd (dialogAccepted decimal_float (2 # 10) w0)).
Proof.
  exact (dialogAccepted_fresh decimal_float w0 w_pla (2 # 10)
           eq_refl eq_refl eq_refl).
Defined.





(** *** The preset path and the dialog *)

(** X13: the preset path does not read the dialog: two controllers that
    agree on the configuration, the stored schedule and the trace, whatever
    their dialog strings (numeric or not) and cached dialog, get the same
    outcome, the same trace and the same stored schedule from
    [_loadPreset]. *)
Theorem loadPreset_ignores_dialog path_join (w1 w2 : world)
        (presetName : string) (lh : Q) :
  configuration (self w1) = configuration (self w2) ->
  stored_schedule (self w1) = stored_schedule (self w2) ->
  trace w1 = trace w2 ->
  let r1 := _loadPreset path_join presetName lh w1 in
  let r2 := _loadPreset path_join presetName lh w2 in
  fst r1 = fst r2
  /\ trace (snd r1) = trace (snd r2)
  /\ stored_schedule (self (snd r1)) = stored_schedule (self (snd r2)).
Proof.
  destruct w1 as [[g1 s1 t1 st1 tc1 b1 sl1 cd1 a1 e1 c1 m1 d1] tr1].
  destruct w2 as [[g2 s2 t2 st2 tc2 b2 sl2 cd2 a2 e2 c2 m2 d2] tr2].
  unfold configuration, stored_schedule. cbn [self trace _guiPath _stlPath
    _presetTables _startTemperature _temperatureChange _baseLayers
    _sectionLayers].
  intros Hc Hs Ht. injection Hc as -> -> ->. injection Hs as -> -> -> ->.
  subst tr2. cbv zeta. unfold _loadPreset. run_py.
  cbn [_presetTables _stlPath].
  destruct (t2 !! presetName) as [t|];
    cbv beta iota; cbn [self trace fst snd]; [|repeat split].
  destruct (t !! "filename") as [fn|];
    cbv beta iota; cbn [self trace fst snd]; [|repeat split].
  destruct (t !! "start value") as [sv|];
    cbv beta iota; cbn [self trace fst snd]; [|repeat split].
  destruct (t !! "change value") as [cv|];
    cbv beta iota; cbn [self trace fst snd]; [|repeat split].
  destruct (Qeq_bool lh 0);
    cbv beta iota; cbn [self trace fst snd]; [repeat split|].
  destruct fn; repeat split.
Qed.

(** A fresh controller and one whose start temperature string is [hot]. *)
Lemma loadPreset_ignores_dialog_witness :
  let r1 := _loadPreset posix_join "pla" (2 # 10) w0 in
  let r2 := _loadPreset posix_join "pla" (2 # 10) w_garbled in
  fst r1 = fst r2
  /\ trace (snd r1) = trace (snd r2)
  /\ stored_schedule (self (snd r1)) = stored_schedule (self (snd r2)).
Proof.
  exact (loadPreset_ignores_dialog posix_join w0 w_garbled "pla" (2 # 10)
           eq_refl eq_refl eq_refl).
Defined.
